(** * A shallow embedding of cnpy (npy / npz reader and writer)

    Files are byte sequences ([list byte]); [size_t] quantities are [N] or
    [nat] with their 2^64 wrap-around written out where the source performs
    arithmetic on them; fixed-width fields written with [operator+=] are
    encoded little-endian (the host is little-endian: the only byte order
    the reader supports).  Thrown [std::runtime_error]s are [Err msg]. *)

From Stdlib Require Import String Ascii.
From Stdlib Require Import List NArith ZArith Arith Lia Bool.
From Stdlib Require Import Strings.Byte.
Import ListNotations.
Open Scope list_scope.

(** ** Error monad: a [throw] is [Err] with the exception message. *)

Inductive result (A : Type) : Type :=
| Ok (a : A)
| Err (msg : string).
Arguments Ok {A} a.
Arguments Err {A} msg.

Definition bind {A B} (m : result A) (k : A -> result B) : result B :=
  match m with Ok a => k a | Err e => Err e end.

Notation "x <- m ;; k" := (bind m (fun x => k))
  (at level 61, m at next level, right associativity).

Definition is_err {A} (r : result A) : bool :=
  match r with Ok _ => false | Err _ => true end.

(** ** Bytes and little-endian fields *)

(** The low byte of [n] ([(char)n]). *)
Definition B (n : N) : byte :=
  match Byte.of_N (n mod 256) with Some b => b | None => x00 end.

Definition bytes (s : string) : list byte := list_byte_of_string s.

(** [v += (uint16_t)n] and [v += (uint32_t)n]: little-endian encodings,
    the casts truncate modulo 2^16 and 2^32. *)
Definition u16 (n : N) : list byte := [B n; B (n / 256)].
Definition u32 (n : N) : list byte :=
  [B n; B (n / 256); B (n / 65536); B (n / 16777216)].

(** Little-endian reads of 2 and 4 bytes at position [i]
    ([*reinterpret_cast<uint16_t*>(&v[i])]). *)
Definition byte_at (l : list byte) (i : nat) : N := Byte.to_N (nth i l x00).
Definition le16_at (l : list byte) (i : nat) : N :=
  byte_at l i + 256 * byte_at l (S i).
Definition le32_at (l : list byte) (i : nat) : N :=
  le16_at l i + 65536 * le16_at l (i + 2).

(** [std::to_string] of an unsigned value: its decimal digits. *)
Definition digit (d : N) : byte := B (48 + d).

Fixpoint dec_rev (fuel : nat) (n : N) : list byte :=
  match fuel with
  | O => []
  | S f => if (n =? 0)%N then [] else digit (n mod 10) :: dec_rev f (n / 10)
  end.

Definition to_string (n : N) : list byte :=
  if (n =? 0)%N then [x30] else rev (dec_rev (S (N.size_nat n)) n).

Definition size_t_mod : N := 2 ^ 64.

(** ** Constants (namespace [cnpy::constants]) *)

Definition numpy_magic : list byte := [x93; x4e; x55; x4d; x50; x59]. (* "\x93NUMPY" *)
Definition numpy_magic_length : nat := 6.
Definition zip_header_length : nat := 30.
Definition zip_footer_length : nat := 22.

(** ** Element types: [sizeof(T)] on the LP64 target and [map_type(typeid(T))]. *)

Inductive ctype :=
| TFloat | TDouble | TLongDouble
| TInt | TChar | TShort | TLong | TLongLong
| TUChar | TUShort | TULong | TULongLong | TUInt
| TBool
| TComplexFloat | TComplexDouble | TComplexLongDouble
| TOther (size : N).  (** any type [map_type] does not list *)

Definition sizeof (t : ctype) : N :=
  match t with
  | TFloat => 4 | TDouble => 8 | TLongDouble => 16
  | TInt => 4 | TChar => 1 | TShort => 2 | TLong => 8 | TLongLong => 8
  | TUChar => 1 | TUShort => 2 | TULong => 8 | TULongLong => 8 | TUInt => 4
  | TBool => 1
  | TComplexFloat => 8 | TComplexDouble => 16 | TComplexLongDouble => 32
  | TOther n => n
  end.

Definition map_type (t : ctype) : byte :=
  match t with
  | TFloat | TDouble | TLongDouble => "f"%byte
  | TInt | TChar | TShort | TLong | TLongLong => "i"%byte
  | TUChar | TUShort | TULong | TULongLong | TUInt => "u"%byte
  | TBool => "b"%byte
  | TComplexFloat | TComplexDouble | TComplexLongDouble => "c"%byte
  | TOther _ => "?"%byte
  end.

(** [BigEndianTest()] on a little-endian host. *)
Definition BigEndianTest : byte := "<"%byte.

(** ** [create_npy_header<T>(shape)] *)

(** [dict.back() = '\n'] *)
Fixpoint set_last (l : list byte) (c : byte) : list byte :=
  match l with
  | [] => []
  | [_] => [c]
  | x :: r => x :: set_last r c
  end.

(** The dictionary before padding.  [shape[0]] of an empty shape is
    undefined behaviour in the source; the model reads 0 there. *)
Definition npy_dict (t : ctype) (shape : list N) : list byte :=
  bytes "{'descr': '" ++ [BigEndianTest; map_type t] ++ to_string (sizeof t)
  ++ bytes "', 'fortran_order': False, 'shape': ("
  ++ to_string (nth 0 shape 0%N)
  ++ concat (map (fun d => bytes ", " ++ to_string d) (tl shape))
  ++ (if length shape =? 1 then bytes "," else [])
  ++ bytes "), }".

Definition big_header_of (dict : list byte) : bool :=
  (65535 <? N.of_nat (length dict) + 1)%N.

Definition pad_remainder (dict : list byte) : nat :=
  64 - (numpy_magic_length + (if big_header_of dict then 4 else 2) + length dict + 1) mod 64.

Definition padded_dict (dict : list byte) : list byte :=
  set_last (dict ++ repeat " "%byte (pad_remainder dict)) "010"%byte.

Definition create_npy_header (t : ctype) (shape : list N) : list byte :=
  let dict0 := npy_dict t shape in
  let big_header := big_header_of dict0 in
  let dict := padded_dict dict0 in
  numpy_magic
  ++ [if big_header then x02 else x01]
  ++ [x00]
  ++ (if big_header then u32 (N.of_nat (length dict)) else u16 (N.of_nat (length dict)))
  ++ dict.

(** ** [std::string] operations used by [parse_npy_header] *)

Fixpoint list_eqb (a b : list byte) : bool :=
  match a, b with
  | [], [] => true
  | x :: a', y :: b' => Byte.eqb x y && list_eqb a' b'
  | _, _ => false
  end.

Fixpoint prefixb (p l : list byte) : bool :=
  match p, l with
  | [], _ => true
  | x :: p', y :: l' => Byte.eqb x y && prefixb p' l'
  | _ :: _, [] => false
  end.

Fixpoint find_from (p l : list byte) (i : nat) : option nat :=
  if prefixb p l then Some i
  else match l with [] => None | _ :: l' => find_from p l' (S i) end.

(** [s.find(p)]; [None] is [std::string::npos]. *)
Definition find (p l : list byte) : option nat := find_from p l 0.

(** [s.substr(pos, n)]: [n = None] is [npos] (to the end); a position
    past the end throws [std::out_of_range]. *)
Definition substr (l : list byte) (pos : nat) (n : option nat) : result (list byte) :=
  if length l <? pos then Err "basic_string::substr"
  else match n with
       | Some k => Ok (firstn k (skipn pos l))
       | None => Ok (skipn pos l)
       end.

Definition is_digit (c : byte) : bool :=
  (48 <=? Byte.to_N c)%N && (Byte.to_N c <=? 57)%N.

(** The successive matches of [std::regex_search] with ["[0-9]+"]:
    the maximal runs of digits, left to right. *)
Fixpoint digit_runs (l : list byte) (cur : list byte) : list (list byte) :=
  match l with
  | [] => match cur with [] => [] | _ => [rev cur] end
  | c :: r =>
      if is_digit c then digit_runs r (c :: cur)
      else match cur with
           | [] => digit_runs r []
           | _ => rev cur :: digit_runs r []
           end
  end.

Definition digits_value (ds : list byte) : N :=
  fold_left (fun acc c => acc * 10 + (Byte.to_N c - 48))%N ds 0%N.

Definition ULONG_MAX : N := size_t_mod - 1.

Definition is_space (c : byte) : bool :=
  match c with x20 | x09 | x0a | x0b | x0c | x0d => true | _ => false end.

Fixpoint take_digits (l : list byte) : list byte :=
  match l with
  | c :: r => if is_digit c then c :: take_digits r else []
  | [] => []
  end.

(** [std::stoul] (base 10): leading white space, an optional sign, at
    least one digit ([std::invalid_argument] otherwise), the value must fit
    an [unsigned long] ([std::out_of_range] otherwise); a minus sign negates
    modulo 2^64, as [strtoul] does. *)
Definition stoul (l : list byte) : result N :=
  let l := (fix skip (l : list byte) := match l with
             | c :: r => if is_space c then skip r else l | [] => [] end) l in
  let '(neg, l) := match l with
                   | x2b :: r => (false, r)
                   | x2d :: r => (true, r)
                   | _ => (false, l)
                   end in
  match take_digits l with
  | [] => Err "stoul"
  | ds => let v := digits_value ds in
          if (ULONG_MAX <? v)%N then Err "stoul"
          else Ok (if neg then (size_t_mod - v) mod size_t_mod else v)%N
  end.

Fixpoint map_result {A B} (f : A -> result B) (l : list A) : result (list B) :=
  match l with
  | [] => Ok []
  | x :: r => y <- f x ;; ys <- map_result f r ;; Ok (y :: ys)
  end.

Definition str (l : list byte) : string := string_of_list_byte l.

(** ** [parse_npy_header(is)]

    The stream is the list of bytes not yet read; the result carries the
    word size, the shape, the fortran_order flag and the rest of the
    stream. *)

(** The part after the header length has been read. *)
Definition parse_header_text (header_length : nat) (s : list byte)
  : result (N * list N * bool * list byte) :=
  let header := firstn header_length s in
  let rest := skipn header_length s in
  (* [header[header.size() - 1]] of an empty header is undefined
     behaviour; the model fails there *)
  if (length s <? header_length) || (header_length =? 0)
     || negb (Byte.eqb (nth (header_length - 1) header x00) x0a)
  then Err "parse_npy_header: failed to read data for header"
  else
  match find (bytes "fortran_order") header with
  | None => Err "parse_npy_header: missing 'fortran_order'"
  | Some loc1 =>
    fo <- substr header (loc1 + 16) (Some 4) ;;
    let fortran_order := list_eqb fo (bytes "True") in
    match find (bytes "(") header, find (bytes ")") header with
    | Some loc1, Some loc2 =>
      (* [loc2 - loc1 - 1] wraps when [loc2 < loc1]: the count is then npos *)
      str_shape <- substr header (loc1 + 1)
                     (if loc1 + 1 <=? loc2 then Some (loc2 - loc1 - 1) else None) ;;
      shape <- map_result stoul (digit_runs str_shape []) ;;
      match find (bytes "descr") header with
      | None => Err "parse_npy_header: missing 'descr'"
      | Some loc1 =>
        let loc1 := loc1 + 9 in
        let e := nth loc1 header x00 in
        if negb (Byte.eqb e "<"%byte || Byte.eqb e "|"%byte)
        then Err "parse_npy_header: endian check failed"
        else
          str_ws <- substr header (loc1 + 2) None ;;
          ws_text <- substr str_ws 0 (find (bytes "'") str_ws) ;;
          word_size <- stoul ws_text ;;
          Ok (word_size, shape, fortran_order, rest)
      end
    | _, _ => Err "parse_npy_header: missing '(' or ')'"
    end
  end.

Definition version_error (major minor : N) : string :=
  ("Numpy version " ++ str (to_string major) ++ "." ++ str (to_string minor)
   ++ " not supported.")%string.

(** A failed one-byte read leaves [major] / [minor] at 0 and fails the
    stream; the failure is reported at the [!is] test after the length. *)
Definition parse_npy_header (s : list byte) : result (N * list N * bool * list byte) :=
  let magic := firstn numpy_magic_length s in
  if negb (list_eqb magic numpy_magic)
  then Err "Not a Numpy file as magic number does not match"
  else
  let s1 := skipn numpy_magic_length s in
  let major := byte_at s1 0 in
  let minor := byte_at s1 1 in
  let s2 := skipn 2 s1 in
  let stream_ok := 2 <=? length s1 in
  let len_field :=
    if (major =? 1)%N && (minor =? 0)%N then Some 2
    else if (major =? 2)%N && (minor =? 0)%N then Some 4
    else None in
  match len_field with
  | None => Err (version_error major minor)
  | Some w =>
    let header_length := if w =? 2 then le16_at s2 0 else le32_at s2 0 in
    if negb (stream_ok && (w <=? length s2))
    then Err "Cannot read header length"
    else parse_header_text (N.to_nat header_length) (skipn w s2)
  end.

(** ** [NpyArray] and [load_the_npy_file] *)

Record NpyArray := mkNpyArray {
  data_holder : list byte;
  shape : list N;
  word_size : N;
  fortran_order : bool;
  num_vals : N
}.

(** [num_vals *= shape[i]] in [size_t]. *)
Definition prod_size_t (l : list N) : N :=
  fold_left (fun a d => (a * d) mod size_t_mod)%N l 1%N.

Definition load_the_npy_file (s : list byte) : result (NpyArray * list byte) :=
  r <- parse_npy_header s ;;
  let '(ws, shp, fo, rest) := r in
  let nv := prod_size_t shp in
  let nb := N.to_nat ((nv * ws) mod size_t_mod) in
  if length rest <? nb then Err "load_the_npy_file: failed fread"
  else Ok (mkNpyArray (firstn nb rest) shp ws fo nv, skipn nb rest).

(** [npy_load(fname)] of an existing file with contents [file]. *)
Definition npy_load (file : list byte) : result NpyArray :=
  r <- load_the_npy_file file ;; Ok (fst r).

(** ** [npy_save<T>(fname, data, shape, mode)] *)

(** Writing [bytes] at position [pos] of a file with contents [old]
    (a gap past the end reads as zeros). *)
Definition overwrite_at (pos : nat) (new old : list byte) : list byte :=
  firstn pos old ++ repeat x00 (pos - length old) ++ new ++ skipn (pos + length new) old.

(** The first [i >= 1] with [shape[i] != true_data_shape[i]], as the
    pair (new, existing). *)
Fixpoint dims_mismatch (sh ds : list N) : option (N * N) :=
  match sh, ds with
  | a :: sh', b :: ds' => if (a =? b)%N then dims_mismatch sh' ds' else Some (a, b)
  | _, _ => None
  end.

(** [true_data_shape[0] += shape[0]] (undefined on an empty shape; the
    model leaves it unchanged). *)
Definition grow (ds sh : list N) : list N :=
  match ds with
  | [] => []
  | d :: r => ((d + nth 0 sh 0%N) mod size_t_mod)%N :: r
  end.

(** The bytes [file.write(data, sizeof(T) * nels)] takes from [data]. *)
Definition payload_len (t : ctype) (sh : list N) : nat :=
  N.to_nat ((sizeof t * prod_size_t sh) mod size_t_mod).

(** [existing] is [Some contents] when the file exists. *)
Definition npy_save (t : ctype) (existing : option (list byte)) (data : list byte)
    (sh : list N) (mode : string) : result (list byte) :=
  let payload := firstn (payload_len t sh) data in
  match existing with
  | Some old =>
    if String.eqb mode "a" then
      r <- parse_npy_header old ;;
      let '(ws, ds, fo, _) := r in
      if negb fo then Err "Appending to existing fortran-order file not supported"
      else if negb (ws =? sizeof t)%N then
        Err ("Appending to existing file with wrong word size: new="
             ++ str (to_string (sizeof t)) ++ " existing=" ++ str (to_string ws))%string
      else if negb (length ds =? length sh) then
        Err ("Appending to existing file with wrong shape: new="
             ++ str (to_string (N.of_nat (length sh))) ++ " existing="
             ++ str (to_string (N.of_nat (length ds))))%string
      else match dims_mismatch (tl sh) (tl ds) with
      | Some (a, b) =>
        Err ("Appending to existing data with wrong dimension: new="
             ++ str (to_string a) ++ " existing=" ++ str (to_string b))%string
      | None =>
        let header := create_npy_header t (grow ds sh) in
        Ok (overwrite_at 0 header old ++ payload)
      end
    else Ok (create_npy_header t sh ++ payload)
  | None => Ok (create_npy_header t sh ++ payload)
  end.

(** ** zlib's [crc32(crc, buf, len)] (reflected polynomial 0xEDB88320) *)

Fixpoint crc_shift (k : nat) (c : N) : N :=
  match k with
  | O => c
  | S k' => crc_shift k' (if N.testbit c 0 then N.lxor (N.shiftr c 1) 3988292384 else N.shiftr c 1)
  end.

Definition crc32 (crc : N) (buf : list byte) : N :=
  N.lxor 4294967295
    (fold_left (fun c b => crc_shift 8 (N.lxor c (Byte.to_N b))) buf (N.lxor crc 4294967295)).

(** ** [parse_zip_footer(is)]: the last [zip_footer_length] bytes. *)
Definition parse_zip_footer (file : list byte) : result (N * N * N) :=
  if length file <? zip_footer_length then Err "parse_zip_footer: failed to read footer"
  else
    let footer := skipn (length file - zip_footer_length) file in
    let disk_no := le16_at footer 4 in
    let disk_start := le16_at footer 6 in
    let nrecs_on_disk := le16_at footer 8 in
    let nrecs := le16_at footer 10 in
    let global_header_size := le32_at footer 12 in
    let global_header_offset := le32_at footer 16 in
    let comment_len := le16_at footer 20 in
    if negb (disk_no =? 0)%N || negb (disk_start =? 0)%N
       || negb (nrecs_on_disk =? nrecs)%N || negb (comment_len =? 0)%N
    then Err "Unexpected EOCD records"
    else Ok (nrecs, global_header_size, global_header_offset).

(** ** [npz_save<T>(zipname, key, data, shape, mode)] *)

(** The first phase of [npz_save]: in append mode on an existing archive,
    the entry count and the offset of the central directory from the
    locator, the directory bytes read from that offset, and the file the
    new bytes are written into; otherwise a new (truncated) file. *)
Definition npz_open (existing : option (list byte)) (mode : string)
  : result (N * nat * list byte * list byte) :=
  match existing with
  | Some old =>
    if String.eqb mode "a" then
      f <- parse_zip_footer old ;;
      let '(nrecs, global_header_size, global_header_offset) := f in
      let global_header :=
        firstn (N.to_nat global_header_size) (skipn (N.to_nat global_header_offset) old) in
      if negb (length global_header =? N.to_nat global_header_size)
      then Err "npz_save: header read error while adding to existing zip"
      else Ok (nrecs, N.to_nat global_header_offset, global_header, old)
    else Ok (0%N, 0, [], [])
  | None => Ok (0%N, 0, [], [])
  end.

Definition npz_local_header (crc nbytes : N) (key : list byte) : list byte :=
  bytes "PK" ++ u16 1027 ++ u16 20 ++ u16 0 ++ u16 0 ++ u16 0 ++ u16 0
  ++ u32 crc ++ u32 nbytes ++ u32 nbytes ++ u16 (N.of_nat (length key)) ++ u16 0 ++ key.

Definition npz_central_record (local_header : list byte) (offset : nat) (key : list byte)
  : list byte :=
  bytes "PK" ++ u16 513 ++ u16 20 ++ firstn 26 (skipn 4 local_header)
  ++ u16 0 ++ u16 0 ++ u16 0 ++ u32 0 ++ u32 (N.of_nat offset) ++ key.

Definition npz_footer (nrecs : N) (global_header_size : nat) (offset : N) : list byte :=
  bytes "PK" ++ u16 1541 ++ u16 0 ++ u16 0 ++ u16 (nrecs + 1) ++ u16 (nrecs + 1)
  ++ u32 (N.of_nat global_header_size) ++ u32 offset ++ u16 0.

Definition npz_save (t : ctype) (existing : option (list byte)) (key : string)
    (data : list byte) (sh : list N) (mode : string) : result (list byte) :=
  let key := bytes key ++ bytes ".npy" in
  o <- npz_open existing mode ;;
  let '(nrecs, global_header_offset, global_header0, old) := o in
  let npy_header := create_npy_header t sh in
  let nels := prod_size_t sh in
  let nbytes := (((nels * sizeof t) mod size_t_mod + N.of_nat (length npy_header)) mod size_t_mod)%N in
  let payload := firstn (payload_len t sh) data in
  (* [crc32] takes its byte count as [unsigned int]: modulo 2^32 *)
  let crc := crc32 (crc32 0 (firstn (N.to_nat (N.of_nat (length npy_header) mod 2 ^ 32)) npy_header))
                   (firstn (N.to_nat (((nels * sizeof t) mod size_t_mod) mod 2 ^ 32)) payload) in
  let local_header := npz_local_header crc nbytes key in
  let global_header :=
    global_header0 ++ npz_central_record local_header global_header_offset key in
  let footer :=
    npz_footer nrecs (length global_header)
      ((N.of_nat global_header_offset + nbytes + N.of_nat (length local_header)) mod size_t_mod)%N in
  Ok (overwrite_at global_header_offset
        (local_header ++ npy_header ++ payload ++ global_header ++ footer) old).

(** ** [npz_load(fname)] *)

(** zlib return codes. *)
Definition Z_OK : Z := 0.
Definition Z_STREAM_END : Z := 1.
Definition Z_DATA_ERROR : Z := -3.
Definition Z_BUF_ERROR : Z := -5.

(** [varname.erase(varname.end() - 4, varname.end())] when the stored
    name has at least 4 characters. *)
Definition npy_key (varname : list byte) : list byte :=
  if 4 <=? length varname then firstn (length varname - 4) varname else varname.

(** [npz_t = std::map<std::string, NpyArray>] as an association list with
    unique keys; [arrays[k] = v] replaces the value of [k] or adds [k]. *)
Definition npz_t := list (list byte * NpyArray).

Fixpoint map_assign (m : npz_t) (k : list byte) (v : NpyArray) : npz_t :=
  match m with
  | [] => [(k, v)]
  | (k', v') :: m' => if list_eqb k k' then (k, v) :: m' else (k', v') :: map_assign m' k v
  end.

Section NpzLoad.

(** zlib's [inflate(&d_stream, Z_FINISH)] on a raw deflate stream: given
    the compressed bytes and [avail_out], its return code and the bytes it
    produced.  [inflateInit2] and [inflateEnd] return [Z_OK]. *)
Variable inflate : list byte -> nat -> Z * list byte.

(** [load_the_npz_array(is, compr_bytes, uncompr_bytes)].  When the
    array's byte count exceeds [uncompr_bytes] the source's [memcpy] reads
    out of bounds (undefined); the model then copies from offset 0. *)
Definition load_the_npz_array (s : list byte) (compr_bytes uncompr_bytes : nat)
  : result (NpyArray * list byte) :=
  if length s <? compr_bytes then Err "Failed reading compressed data"
  else
  let buffer_compr := firstn compr_bytes s in
  let s' := skipn compr_bytes s in
  let '(ret, out) := inflate buffer_compr uncompr_bytes in
  if negb (ret =? Z_OK)%Z then Err "Failed inflating buffer."
  else
  let buffer_uncompr := firstn uncompr_bytes (out ++ repeat x00 uncompr_bytes) in
  r <- parse_npy_header buffer_uncompr ;;
  let '(ws, shp, fo, _) := r in
  let nv := prod_size_t shp in
  let nb := N.to_nat ((nv * ws) mod size_t_mod) in
  let offset := uncompr_bytes - nb in
  Ok (mkNpyArray (firstn nb (skipn offset buffer_uncompr)) shp ws fo nv, s').

(** One entry after its 30-byte local header [local_header] was read and
    its signature bytes checked; [k] continues the scan. *)
Definition npz_read_entry (k : npz_t -> list byte -> result npz_t) (arrays : npz_t)
    (local_header s : list byte) : result npz_t :=
  let name_len := N.to_nat (le16_at local_header 26) in
  if length s <? name_len then Err "Failed reading variable name"
  else
  let varname := npy_key (firstn name_len s) in
  let s := skipn name_len s in
  let extra_field_len := N.to_nat (le16_at local_header 28) in
  if length s <? extra_field_len then Err "Failed reading extra field"
  else
  let s := skipn extra_field_len s in
  let compr_method := le16_at local_header 8 in
  let compr_bytes := N.to_nat (le32_at local_header 18) in
  let uncompr_bytes := N.to_nat (le32_at local_header 22) in
  r <- (if (compr_method =? 0)%N then load_the_npy_file s
        else load_the_npz_array s compr_bytes uncompr_bytes) ;;
  let '(arr, s) := r in
  k (map_assign arrays varname arr) s.

(** The [while (is)] loop; the stream stays good after every entry (all
    failures throw), and every iteration consumes at least 30 bytes, so
    [S (length file)] rounds are never exhausted. *)
Fixpoint npz_scan (fuel : nat) (arrays : npz_t) (s : list byte) : result npz_t :=
  match fuel with
  | O => Ok arrays
  | S fuel' =>
    if length s <? zip_header_length then Err "Failed reading header"
    else
    let local_header := firstn zip_header_length s in
    if negb (Byte.eqb (nth 2 local_header x00) x03) || negb (Byte.eqb (nth 3 local_header x00) x04)
    then Ok arrays
    else npz_read_entry (npz_scan fuel') arrays local_header (skipn zip_header_length s)
  end.

Definition npz_load (file : list byte) : result npz_t :=
  npz_scan (S (length file)) [] file.

End NpzLoad.

(** zlib's raw inflate restricted to stored (BTYPE = 00) blocks, called
    with [Z_FINISH]: [Z_STREAM_END] once the final block is decoded into
    the available output, [Z_BUF_ERROR] if the output does not fit,
    [Z_DATA_ERROR] on any other block. *)
Fixpoint stored_blocks (fuel : nat) (src acc : list byte) : option (list byte) :=
  match fuel with
  | O => None
  | S f =>
    match src with
    | hdr :: l0 :: l1 :: n0 :: n1 :: rest =>
      let len := (Byte.to_N l0 + 256 * Byte.to_N l1)%N in
      let nlen := (Byte.to_N n0 + 256 * Byte.to_N n1)%N in
      if negb ((Byte.to_N hdr / 2) mod 4 =? 0)%N || negb (nlen =? 65535 - len)%N
         || (length rest <? N.to_nat len)
      then None
      else
        let acc := acc ++ firstn (N.to_nat len) rest in
        if N.testbit (Byte.to_N hdr) 0 then Some acc
        else stored_blocks f (skipn (N.to_nat len) rest) acc
    | _ => None
    end
  end.

Definition inflate_stored (src : list byte) (avail_out : nat) : Z * list byte :=
  match stored_blocks (length src) src [] with
  | Some out => if length out <=? avail_out then (Z_STREAM_END, out)
                else (Z_BUF_ERROR, firstn avail_out out)
  | None => (Z_DATA_ERROR, [])
  end.

(** ** Concrete inputs *)

(** A shape of 21827 ones: its dictionary is 65534 bytes before padding,
    just under the version switch. *)
Definition tall_shape : list N := repeat 1%N (N.to_nat 21827).

(** A single-array file as numpy writes it for a fortran-ordered [double]
    array of shape (1, 3): the header text is padded with spaces to
    [text_len] bytes and ends in a newline. *)
Definition fortran_file (text_len : nat) : list byte :=
  let text := bytes "{'descr': '<f8', 'fortran_order': True, 'shape': (1, 3), }" in
  numpy_magic ++ [x01; x00] ++ u16 (N.of_nat text_len)
  ++ text ++ repeat " "%byte (text_len - 1 - length text) ++ [x0a]
  ++ repeat x07 24.

(** A raw deflate stream of one final stored block. *)
Definition stored_stream (payload : list byte) : list byte :=
  [x01] ++ u16 (N.of_nat (length payload)) ++ u16 (65535 - N.of_nat (length payload))
  ++ payload.

(** The single-array file of an [int] array of shape (3,). *)
Definition int3_npy : list byte := create_npy_header TInt [3%N] ++ repeat x01 12.

(** A 30-byte block with bytes 2 and 3 equal to 0x03 0x04 but not starting
    with "PK"; as a local header it names an empty, stored entry. *)
Definition bad_block : list byte := [x00; x00; x03; x04] ++ repeat x00 26.

(** A one-entry archive written by [npz_save<int>(.., "a", .., {3}, "w")]. *)
Definition demo_archive : list byte :=
  Eval vm_compute in
    match npz_save TInt None "a" (repeat x01 12) [3%N] "w" with
    | Ok f => f
    | Err _ => []
    end.

(** [demo_archive] after [npz_save<double>(.., "b", .., {2}, "a")]. *)
Definition demo_appended : list byte :=
  Eval vm_compute in
    match npz_save TDouble (Some demo_archive) "b" (repeat x02 16) [2%N] "a" with
    | Ok f => f
    | Err _ => []
    end.

(** An archive with an empty central directory whose locator records 65535
    entries. *)
Definition full_count_archive : list byte :=
  bytes "PK" ++ u16 1541 ++ u16 0 ++ u16 0 ++ u16 65535 ++ u16 65535
  ++ u32 0 ++ u32 0 ++ u16 0.

(** The result of appending one double to [full_count_archive]. *)
Definition full_count_appended : list byte :=
  match npz_save TDouble (Some full_count_archive) "a" (repeat x00 8) [1%N] "a" with
  | Ok f => f
  | Err _ => []
  end.

(** ** Lengths of the generated header *)

Lemma set_last_length (l : list byte) (c : byte) : length (set_last l c) = length l.
Proof.
  induction l as [|x r IH]; [reflexivity|].
  destruct r as [|y r']; [reflexivity|].
  change (length (x :: set_last (y :: r') c) = S (length (y :: r'))).
  simpl length in *. now rewrite IH.
Qed.

Lemma padded_dict_length (dict : list byte) :
  length (padded_dict dict) = length dict + pad_remainder dict.
Proof.
  unfold padded_dict. rewrite set_last_length, length_app, repeat_length. reflexivity.
Qed.

Lemma u16_length (n : N) : length (u16 n) = 2.
Proof. reflexivity. Qed.

Lemma u32_length (n : N) : length (u32 n) = 4.
Proof. reflexivity. Qed.

Lemma create_npy_header_length (t : ctype) (shape : list N) :
  length (create_npy_header t shape) =
  8 + (if big_header_of (npy_dict t shape) then 4 else 2)
    + length (npy_dict t shape) + pad_remainder (npy_dict t shape).
Proof.
  unfold create_npy_header.
  rewrite !length_app, padded_dict_length.
  destruct (big_header_of (npy_dict t shape)); simpl; lia.
Qed.

(** (Claim C1, as the code has it.)  The prefix magic + version + length
    field + text of every header produced by [create_npy_header] is one
    more than a multiple of 64: the padding formula counts the magic, the
    length field and the newline, but not the two version bytes. *)
Theorem create_npy_header_prefix_mod64 (t : ctype) (shape : list N) :
  length (create_npy_header t shape) mod 64 = 1.
Proof.
  rewrite create_npy_header_length. unfold pad_remainder, numpy_magic_length.
  set (L := if big_header_of (npy_dict t shape) then 4 else 2).
  set (d := length (npy_dict t shape)).
  assert (Hb : (6 + L + d + 1) mod 64 < 64) by (apply Nat.mod_upper_bound; lia).
  assert (Hd := Nat.div_mod_eq (6 + L + d + 1) 64).
  set (q := (6 + L + d + 1) / 64) in *.
  set (r := (6 + L + d + 1) mod 64) in *.
  replace (8 + L + d + (64 - r)) with (1 + (q + 1) * 64) by lia.
  rewrite Nat.Div0.mod_add. reflexivity.
Qed.

(** The header of a [double] array of shape (3,) is 129 bytes long. *)
Example create_npy_header_3_double :
  length (create_npy_header TDouble [3%N]) = 129.
Proof. reflexivity. Qed.

(** ** Structural facts about the parser and the writer *)

Ltac split_matches H :=
  repeat (match type of H with
          | context [match ?x with _ => _ end] => destruct x eqn:?
          | context [if ?b then _ else _] => destruct b eqn:?
          end; try discriminate).

(** The parser consumes a prefix of the stream. *)
Lemma parse_header_text_rest (hl : nat) (s : list byte) r :
  parse_header_text hl s = Ok r -> snd r = skipn hl s.
Proof.
  unfold parse_header_text, bind. intro H. split_matches H.
  inversion H; reflexivity.
Qed.

Lemma parse_npy_header_rest (old : list byte) ws ds fo rest :
  parse_npy_header old = Ok (ws, ds, fo, rest) ->
  exists k, rest = skipn k old.
Proof.
  unfold parse_npy_header. intro H. split_matches H;
    apply parse_header_text_rest in H; cbn [snd] in H; subst rest;
    rewrite !skipn_skipn; eexists; reflexivity.
Qed.

Lemma parse_npy_header_split (old : list byte) ws ds fo rest :
  parse_npy_header old = Ok (ws, ds, fo, rest) ->
  old = firstn (length old - length rest) old ++ rest.
Proof.
  intro H. destruct (parse_npy_header_rest _ _ _ _ _ H) as [k Hk]. subst rest.
  rewrite length_skipn.
  destruct (Nat.le_gt_cases k (length old)) as [Hle|Hgt].
  - replace (length old - (length old - k)) with k by lia.
    symmetry; apply firstn_skipn.
  - rewrite (proj2 (Nat.sub_0_le (length old) k)) by lia.
    rewrite Nat.sub_0_r, firstn_all, skipn_all2 by lia. now rewrite app_nil_r.
Qed.

Lemma overwrite_at_0 (h old : list byte) :
  overwrite_at 0 h old = h ++ skipn (length h) old.
Proof. reflexivity. Qed.

Lemma dims_mismatch_None (a b : list N) :
  length a = length b ->
  dims_mismatch a b = None <-> (forall i, i < length a -> nth i a 0%N = nth i b 0%N).
Proof.
  revert b; induction a as [|x a IH]; intros [|y b] Hl; simpl in *; try lia.
  - split; [intros _ i Hi; lia | reflexivity].
  - destruct (N.eqb_spec x y) as [->|Hne].
    + rewrite IH by lia. split.
      * intros Hall [|i] Hi; [reflexivity|]. apply Hall; lia.
      * intros Hall i Hi. apply (Hall (S i)); lia.
    + split; [discriminate|]. intro Hall. exfalso. apply Hne, (Hall 0); lia.
Qed.

Lemma trailing_dims_iff (sh ds : list N) :
  length ds = length sh ->
  dims_mismatch (tl sh) (tl ds) = None <->
  (forall i, 1 <= i < length sh -> nth i sh 0%N = nth i ds 0%N).
Proof.
  intro Hl. destruct sh as [|x sh], ds as [|y ds]; simpl in *; try discriminate.
  - split; [intros _ i Hi; lia | reflexivity].
  - rewrite dims_mismatch_None by lia. split.
    + intros Hall [|i] Hi; [lia|]. apply Hall; lia.
    + intros Hall i Hi. apply (Hall (S i)); lia.
Qed.

Lemma dims_mismatch_Some (a b : list N) p :
  dims_mismatch a b = Some p ->
  exists i, i < length a /\ nth i a 0%N <> nth i b 0%N.
Proof.
  revert b; induction a as [|x a IH]; intros [|y b] H; simpl in *; try discriminate.
  destruct (N.eqb_spec x y) as [->|Hne].
  - destruct (IH b H) as [i [Hi Hn]]. exists (S i); simpl; split; [lia|exact Hn].
  - exists 0; split; [lia|exact Hne].
Qed.

(** ** Single-array files: version switch and round trip (claims C6, C2) *)

(** Claim C6 (at the failing input).  For the shape of 21827 ones the
    dictionary is 65534 bytes before padding, so [create_npy_header] keeps
    version 1.0 with a 2-byte length field; padding brings the text to 65591
    bytes, more than 16 bits hold, and the length field stores 55. *)
Theorem create_npy_header_tall_shape_v1_wraps :
  N.of_nat (length (npy_dict TDouble tall_shape)) = 65534%N /\
  nth 6 (create_npy_header TDouble tall_shape) x00 = x01 /\
  nth 7 (create_npy_header TDouble tall_shape) x00 = x00 /\
  N.of_nat (length (create_npy_header TDouble tall_shape) - 10) = 65591%N /\
  le16_at (create_npy_header TDouble tall_shape) 8 = 55%N.
Proof. vm_compute. repeat split. Qed.

(** Claim C2 (at the failing input).  Saving a [double] array of the shape
    of 21827 ones in create mode writes the version-1.0 header with the
    wrapped length field; loading the file back fails, as the 55 header
    bytes the length field announces do not end in a newline. *)
Theorem npy_save_load_tall_shape_fails :
  npy_save TDouble None (repeat x00 8) tall_shape "w"
    = Ok (create_npy_header TDouble tall_shape ++ repeat x00 8) /\
  npy_load (create_npy_header TDouble tall_shape ++ repeat x00 8)
    = Err "parse_npy_header: failed to read data for header".
Proof.
  split.
  - unfold npy_save.
    replace (payload_len TDouble tall_shape) with 8 by (vm_compute; reflexivity).
    reflexivity.
  - vm_compute. reflexivity.
Qed.

(** ** Single-array append (claims C3, C4) *)

(** Claim C3 (counterexample).  An existing fortran-ordered [double] file of
    shape (1, 3): appending a (2, 4) block (same word size, same rank)
    throws, as the second dimension differs. *)
Lemma npy_save_append_counterexample :
  parse_npy_header (fortran_file 118) = Ok (8%N, [1; 3]%N, true, repeat x07 24) /\
  npy_save TDouble (Some (fortran_file 118)) (repeat x00 64) [2; 4]%N "a"
    = Err "Appending to existing data with wrong dimension: new=4 existing=3".
Proof. split; vm_compute; reflexivity. Qed.

(** Claim C3 (amended).  Append to an existing file whose header declares
    fortran_order = true, with word size [sizeof(T)]. Let the existing
    shape have the new shape's rank, with that rank not 0. If the
    dimensions after the first also match, the save succeeds. It rewrites
    the header at offset 0 as the header of the grown shape. In that shape,
    dimension 0 is increased by the new leading dimension, modulo 2^64. The
    new bytes are then appended at the end. When that header has the byte
    length of the existing header, the file is the new header, the old
    payload, then the new bytes. If a dimension after the first differs,
    the save throws. *)
Theorem npy_save_append_grows (t : ctype) (old data : list byte) (sh ds : list N)
    (rest : list byte) :
  parse_npy_header old = Ok (sizeof t, ds, true, rest) ->
  length ds = length sh ->
  sh <> [] ->
  length data = payload_len t sh ->
  let header :=
    create_npy_header t (((nth 0 ds 0 + nth 0 sh 0) mod size_t_mod)%N :: tl ds) in
  ((forall i, 1 <= i < length sh -> nth i sh 0%N = nth i ds 0%N) ->
   npy_save t (Some old) data sh "a" = Ok (overwrite_at 0 header old ++ data) /\
   (length header = length old - length rest ->
    npy_save t (Some old) data sh "a" = Ok (header ++ rest ++ data))) /\
  ((exists i, 1 <= i < length sh /\ nth i sh 0%N <> nth i ds 0%N) ->
   is_err (npy_save t (Some old) data sh "a") = true).
Proof.
  intros Hp Hr Hne Hd header.
  assert (Hg : grow ds sh = ((nth 0 ds 0 + nth 0 sh 0) mod size_t_mod)%N :: tl ds)
    by (destruct ds, sh; simpl in *; try congruence; reflexivity).
  assert (Hsave : (forall i, 1 <= i < length sh -> nth i sh 0%N = nth i ds 0%N) ->
                  npy_save t (Some old) data sh "a" = Ok (overwrite_at 0 header old ++ data)).
  { intro Htl. unfold npy_save. rewrite Hp. cbn [String.eqb Ascii.eqb Bool.eqb bind negb].
    rewrite N.eqb_refl, Hr, Nat.eqb_refl.
    rewrite (proj2 (trailing_dims_iff sh ds Hr) Htl).
    rewrite firstn_all2 by lia. rewrite Hg. reflexivity. }
  split.
  - intro Htl. split; [exact (Hsave Htl)|]. intro Hh.
    rewrite (Hsave Htl).
    pose proof (parse_npy_header_split _ _ _ _ _ Hp) as Hsplit.
    rewrite overwrite_at_0, Hh.
    rewrite Hsplit at 2.
    rewrite skipn_app, skipn_all2, length_firstn by (rewrite length_firstn; lia).
    replace (length old - length rest - Nat.min (length old - length rest) (length old))
      with 0 by lia.
    rewrite skipn_O, <- app_assoc. reflexivity.
  - intros [i [Hi Hn]]. unfold npy_save. rewrite Hp.
    cbn [String.eqb Ascii.eqb Bool.eqb bind negb].
    rewrite N.eqb_refl, Hr, Nat.eqb_refl.
    destruct (dims_mismatch (tl sh) (tl ds)) as [[a b]|] eqn:Hm; [reflexivity|].
    exfalso. apply Hn. exact (proj1 (trailing_dims_iff sh ds Hr) Hm i Hi).
Qed.

(** Claim C3, witness: numpy-style fortran file of shape (1, 3) whose header
    is 129 bytes long, the length of the rewritten header for (3, 3);
    a (2, 3) block is appended. *)
Lemma npy_save_append_grows_witness :
  parse_npy_header (fortran_file 119) = Ok (sizeof TDouble, [1; 3]%N, true, repeat x07 24) /\
  (npy_save TDouble (Some (fortran_file 119)) (repeat x09 48) [2; 3]%N "a"
     = Ok (overwrite_at 0 (create_npy_header TDouble [3; 3]%N) (fortran_file 119)
           ++ repeat x09 48) /\
   (length (create_npy_header TDouble [3; 3]%N)
      = length (fortran_file 119) - length (repeat x07 24) ->
    npy_save TDouble (Some (fortran_file 119)) (repeat x09 48) [2; 3]%N "a"
      = Ok (create_npy_header TDouble [3; 3]%N ++ repeat x07 24 ++ repeat x09 48))).
Proof.
  assert (Hp : parse_npy_header (fortran_file 119)
               = Ok (sizeof TDouble, [1; 3]%N, true, repeat x07 24))
    by (vm_compute; reflexivity).
  split; [exact Hp|].
  refine (proj1 (npy_save_append_grows TDouble (fortran_file 119) (repeat x09 48)
                   [2; 3]%N [1; 3]%N (repeat x07 24) Hp eq_refl _ _) _).
  - discriminate.
  - vm_compute. reflexivity.
  - intros i Hi. simpl in Hi. assert (i = 1) as -> by lia. reflexivity.
Defined.

(** Claim C4 (counterexample).  The fortran-ordered [double] file of shape
    (1, 3) has the new data's word size and rank, yet appending a (1, 5)
    block throws. *)
Lemma npy_save_append_error_counterexample :
  parse_npy_header (fortran_file 118) = Ok (8%N, [1; 3]%N, true, repeat x07 24) /\
  sizeof TDouble = 8%N /\
  npy_save TDouble (Some (fortran_file 118)) (repeat x00 40) [1; 5]%N "a"
    = Err "Appending to existing data with wrong dimension: new=5 existing=3".
Proof. split; [|split]; vm_compute; reflexivity. Qed.

(** Claim C4 (amended).  On an existing file whose header parses, with the
    new shape or the stored one not empty (rank 0 on both sides would index
    [shape[0]] of empty vectors), appending throws exactly when the header
    declares fortran_order = false, or its word size differs from
    [sizeof(T)], or its rank differs from the new shape's, or some
    dimension after the first differs. *)
Theorem npy_save_append_error_iff (t : ctype) (old data : list byte) (sh ds : list N)
    (ws : N) (fo : bool) (rest : list byte) :
  parse_npy_header old = Ok (ws, ds, fo, rest) ->
  sh <> [] \/ ds <> [] ->
  (is_err (npy_save t (Some old) data sh "a") = true <->
   fo = false \/ ws <> sizeof t \/ length ds <> length sh \/
   (exists i, 1 <= i < length sh /\ nth i sh 0%N <> nth i ds 0%N)).
Proof.
  intros Hp _. unfold npy_save. rewrite Hp. cbn [String.eqb Ascii.eqb Bool.eqb bind].
  destruct fo; [|simpl; tauto].
  destruct (N.eqb_spec ws (sizeof t)) as [Hw|Hw]; [|simpl; tauto].
  destruct (Nat.eqb_spec (length ds) (length sh)) as [Hl|Hl]; [|simpl; tauto].
  cbn [negb].
  destruct (dims_mismatch (tl sh) (tl ds)) as [[a b]|] eqn:Hm.
  - simpl. split; [intros _|reflexivity].
    right; right; right.
    destruct (dims_mismatch_Some _ _ _ Hm) as [i [Hi Hn]].
    exists (S i). destruct sh as [|x sh], ds as [|y ds]; simpl in *; try discriminate.
    split; [lia|exact Hn].
  - simpl. split; [discriminate|].
    intros [H|[H|[H|[i [Hi Hn]]]]]; try discriminate; try contradiction.
    exfalso. apply Hn. apply (proj1 (trailing_dims_iff sh ds Hl) Hm). exact Hi.
Qed.

(** Claim C4, witness: the fortran file of shape (1, 3). *)
Lemma npy_save_append_error_iff_witness :
  parse_npy_header (fortran_file 118) = Ok (8%N, [1; 3]%N, true, repeat x07 24) /\
  ([1; 5]%N <> [] \/ [1; 3]%N <> []) /\
  (is_err (npy_save TDouble (Some (fortran_file 118)) (repeat x00 40) [1; 5]%N "a") = true <->
   true = false \/ 8%N <> sizeof TDouble \/ length [1; 3]%N <> length [1; 5]%N \/
   (exists i, 1 <= i < length [1; 5]%N /\ nth i [1; 5]%N 0%N <> nth i [1; 3]%N 0%N)).
Proof.
  assert (Hp : parse_npy_header (fortran_file 118)
               = Ok (8%N, [1; 3]%N, true, repeat x07 24))
    by (vm_compute; reflexivity).
  assert (Hne : [1; 5]%N <> [] \/ [1; 3]%N <> []) by (left; discriminate).
  split; [exact Hp|]. split; [exact Hne|].
  exact (npy_save_append_error_iff TDouble (fortran_file 118) (repeat x00 40)
           [1; 5]%N [1; 3]%N 8%N true (repeat x07 24) Hp Hne).
Defined.

(** ** Version gate of [parse_npy_header] (claim C9) *)

Lemma list_eqb_refl (l : list byte) : list_eqb l l = true.
Proof. induction l as [|x l IH]; simpl; [reflexivity|now rewrite Byte.byte_dec_lb, IH]. Qed.

(** Claim C9.  After a matching magic, version 1.0 reads a 2-byte
    little-endian header length, version 2.0 a 4-byte one (a stream too
    short for it fails), and every other major/minor pair fails with the
    version error, whatever follows. *)
Theorem parse_npy_header_version_gate (major minor : byte) (rest : list byte) :
  parse_npy_header (numpy_magic ++ major :: minor :: rest) =
  if (Byte.to_N major =? 1)%N && (Byte.to_N minor =? 0)%N then
    (if length rest <? 2 then Err "Cannot read header length"
     else parse_header_text (N.to_nat (le16_at rest 0)) (skipn 2 rest))
  else if (Byte.to_N major =? 2)%N && (Byte.to_N minor =? 0)%N then
    (if length rest <? 4 then Err "Cannot read header length"
     else parse_header_text (N.to_nat (le32_at rest 0)) (skipn 4 rest))
  else Err (version_error (Byte.to_N major) (Byte.to_N minor)).
Proof.
  unfold parse_npy_header.
  replace (firstn numpy_magic_length (numpy_magic ++ major :: minor :: rest))
    with numpy_magic by reflexivity.
  rewrite list_eqb_refl. cbn [negb].
  replace (skipn numpy_magic_length (numpy_magic ++ major :: minor :: rest))
    with (major :: minor :: rest) by reflexivity.
  unfold byte_at. cbn [nth skipn length].
  destruct ((Byte.to_N major =? 1)%N && (Byte.to_N minor =? 0)%N);
    [|destruct ((Byte.to_N major =? 2)%N && (Byte.to_N minor =? 0)%N)];
    try reflexivity;
    destruct rest as [|a [|b [|c [|d r]]]]; reflexivity.
Qed.

(** ** Archive reader (claims C7, C8, C10) *)

(** Claim C7 (for every completed inflation).  zlib's [inflate] called with
    [Z_FINISH] reports a complete decompression as [Z_STREAM_END];
    [load_the_npz_array] accepts only [Z_OK], so it throws before the
    header is parsed and no array is returned, whatever the buffer holds. *)
Theorem load_the_npz_array_rejects_complete_inflate
    (inflate : list byte -> nat -> Z * list byte) (s : list byte)
    (compr_bytes uncompr_bytes : nat) :
  compr_bytes <= length s ->
  fst (inflate (firstn compr_bytes s) uncompr_bytes) = Z_STREAM_END ->
  length (snd (inflate (firstn compr_bytes s) uncompr_bytes)) = uncompr_bytes ->
  load_the_npz_array inflate s compr_bytes uncompr_bytes = Err "Failed inflating buffer.".
Proof.
  intros Hc Hret _. unfold load_the_npz_array.
  replace (length s <? compr_bytes) with false by (symmetry; apply Nat.ltb_ge; lia).
  destruct (inflate (firstn compr_bytes s) uncompr_bytes) as [ret out].
  cbn in Hret. subst ret. reflexivity.
Qed.

(** Claim C7, witness: the [int] array of shape (3,) as one stored deflate
    block, inflated to its 141 bytes. *)
Lemma load_the_npz_array_rejects_complete_inflate_witness :
  fst (inflate_stored (stored_stream int3_npy) 141) = Z_STREAM_END /\
  snd (inflate_stored (stored_stream int3_npy) 141) = int3_npy /\
  load_the_npz_array inflate_stored (stored_stream int3_npy)
    (length (stored_stream int3_npy)) 141 = Err "Failed inflating buffer.".
Proof.
  split; [vm_compute; reflexivity|]. split; [vm_compute; reflexivity|].
  pose proof (load_the_npz_array_rejects_complete_inflate inflate_stored
                (stored_stream int3_npy) (length (stored_stream int3_npy)) 141) as H.
  rewrite firstn_all in H. apply H.
  - apply le_n.
  - vm_compute. reflexivity.
  - vm_compute. reflexivity.
Defined.

(** Claim C8 (counterexample).  A block whose leading 4 bytes are not
    "PK\x03\x04" but whose bytes 2 and 3 are 0x03 0x04 does not end the
    scan: it is read as an entry, and loading fails. *)
Lemma npz_scan_signature_counterexample :
  firstn 4 bad_block <> bytes "PK" ++ [x03; x04] /\
  npz_load inflate_stored bad_block = Err "Not a Numpy file as magic number does not match".
Proof. split; [discriminate | vm_compute; reflexivity]. Qed.

(** Claim C8 (amended).  The scan reads the next 30 bytes; fewer than 30
    remaining bytes raise "Failed reading header". On a 30-byte block the
    scan stops with the map built so far exactly when byte 2 or byte 3
    differs from 0x03, 0x04 (bytes 0 and 1 are not checked); otherwise the
    block is read as the local header of an entry. *)
Theorem npz_scan_stop_rule (inflate : list byte -> nat -> Z * list byte) (fuel : nat)
    (arrays : npz_t) :
  (forall blk rest : list byte,
     length blk = 30 ->
     npz_scan inflate (S fuel) arrays (blk ++ rest) =
     if Byte.eqb (nth 2 blk x00) x03 && Byte.eqb (nth 3 blk x00) x04
     then npz_read_entry inflate (npz_scan inflate fuel) arrays blk rest
     else Ok arrays) /\
  (forall s : list byte,
     length s < 30 ->
     npz_scan inflate (S fuel) arrays s = Err "Failed reading header").
Proof.
  split.
  - intros blk rest Hl. cbn [npz_scan]. unfold zip_header_length.
    rewrite length_app, Hl.
    replace (30 + length rest <? 30) with false by (symmetry; apply Nat.ltb_ge; lia).
    rewrite <- Hl, firstn_app, Nat.sub_diag, firstn_O, app_nil_r, firstn_all.
    rewrite skipn_app, Nat.sub_diag, skipn_O, skipn_all.
    destruct (Byte.eqb (nth 2 blk x00) x03), (Byte.eqb (nth 3 blk x00) x04); reflexivity.
  - intros s Hl. cbn [npz_scan]. unfold zip_header_length.
    replace (length s <? 30) with true by (symmetry; apply Nat.ltb_lt; exact Hl).
    reflexivity.
Qed.

(** Claim C8, witness, on [demo_archive] (entry [a] at offset 0, central
    directory at offset 176, 22-byte locator at offset 227): its first
    block is read as an entry; with entry [a] loaded, the directory record
    ends the scan; the locator alone is too short for a block. *)
Lemma npz_scan_stop_rule_witness :
  length (firstn 30 demo_archive) = 30 /\
  npz_scan inflate_stored 2 [] (firstn 30 demo_archive ++ skipn 30 demo_archive)
    = npz_read_entry inflate_stored (npz_scan inflate_stored 1) []
        (firstn 30 demo_archive) (skipn 30 demo_archive) /\
  length (firstn 30 (skipn 176 demo_archive)) = 30 /\
  npz_scan inflate_stored 1 [(bytes "a", mkNpyArray (repeat x01 12) [3%N] 4 false 3)]
    (firstn 30 (skipn 176 demo_archive) ++ skipn 206 demo_archive)
    = Ok [(bytes "a", mkNpyArray (repeat x01 12) [3%N] 4 false 3)] /\
  length (skipn 227 demo_archive) < 30 /\
  npz_scan inflate_stored 1 [(bytes "a", mkNpyArray (repeat x01 12) [3%N] 4 false 3)]
    (skipn 227 demo_archive) = Err "Failed reading header".
Proof.
  destruct (npz_scan_stop_rule inflate_stored 1 []) as [Hentry _].
  destruct (npz_scan_stop_rule inflate_stored 0
              [(bytes "a", mkNpyArray (repeat x01 12) [3%N] 4 false 3)])
    as [Hstop Hshort].
  split; [vm_compute; reflexivity|]. split.
  - rewrite Hentry by (vm_compute; reflexivity). vm_compute. reflexivity.
  - split; [vm_compute; reflexivity|]. split.
    + rewrite Hstop by (vm_compute; reflexivity). vm_compute. reflexivity.
    + split; [vm_compute; lia|]. apply Hshort. vm_compute. lia.
Defined.

(** Claim C10.  The map key is the stored name without its last 4
    characters when the name has at least 4 of them (so a 4-character name
    gives the empty key), and the stored name itself otherwise. *)
Theorem npy_key_strip (name : list byte) :
  (length name < 4 /\ npy_key name = name) \/
  (4 <= length name /\ length (npy_key name) = length name - 4 /\
   npy_key name ++ skipn (length name - 4) name = name).
Proof.
  unfold npy_key. destruct (Nat.leb_spec 4 (length name)) as [H|H].
  - right. split; [exact H|]. split.
    + rewrite length_firstn. lia.
    + apply firstn_skipn.
  - left. split; [exact H|reflexivity].
Qed.

(** ** Archive writer (claim C5) *)

Lemma bytes_length (s : string) : length (bytes s) = String.length s.
Proof.
  unfold bytes, list_byte_of_string. rewrite length_map.
  induction s as [|c s IH]; simpl; [reflexivity|now rewrite IH].
Qed.

Lemma B_to_N (n : N) : Byte.to_N (B n) = (n mod 256)%N.
Proof.
  unfold B. destruct (Byte.of_N (n mod 256)) as [b|] eqn:E.
  - now apply Byte.to_of_N in E.
  - apply Byte.of_N_None_iff in E.
    assert (n mod 256 < 256)%N by (apply N.mod_lt; discriminate). lia.
Qed.

Lemma byte_at_shift (a l : list byte) (i : nat) :
  byte_at (a ++ l) (length a + i) = byte_at l i.
Proof. unfold byte_at. now rewrite app_nth2_plus. Qed.

Lemma le16_at_shift (a l : list byte) (i : nat) :
  le16_at (a ++ l) (length a + i) = le16_at l i.
Proof.
  unfold le16_at. replace (S (length a + i)) with (length a + S i) by lia.
  now rewrite !byte_at_shift.
Qed.

Lemma le32_at_shift (a l : list byte) (i : nat) :
  le32_at (a ++ l) (length a + i) = le32_at l i.
Proof.
  unfold le32_at. replace (length a + i + 2) with (length a + (i + 2)) by lia.
  now rewrite !le16_at_shift.
Qed.

Lemma u16_decode (n : N) (l : list byte) : le16_at (u16 n ++ l) 0 = (n mod 2 ^ 16)%N.
Proof.
  unfold le16_at, byte_at. cbn [u16 app nth]. rewrite !B_to_N.
  change (2 ^ 16)%N with (256 * 256)%N. rewrite N.Div0.mod_mul_r. reflexivity.
Qed.

Lemma u32_decode (n : N) (l : list byte) : le32_at (u32 n ++ l) 0 = (n mod 2 ^ 32)%N.
Proof.
  unfold le32_at, le16_at, byte_at. cbn [u32 app nth Nat.add]. rewrite !B_to_N.
  assert (E1 : (n mod 2 ^ 32 = n mod 65536 + 65536 * ((n / 65536) mod 65536))%N)
    by (rewrite <- N.Div0.mod_mul_r; reflexivity).
  assert (E2 : (n mod 65536 = n mod 256 + 256 * ((n / 256) mod 256))%N)
    by (rewrite <- N.Div0.mod_mul_r; reflexivity).
  assert (E3 : ((n / 65536) mod 65536
                = (n / 65536) mod 256 + 256 * ((n / 16777216) mod 256))%N)
    by (change 16777216%N with (65536 * 256)%N;
        rewrite <- (N.Div0.div_div n 65536 256), <- N.Div0.mod_mul_r; reflexivity).
  rewrite E1, E2, E3. reflexivity.
Qed.

Lemma mod_size_t_32 (x : N) : ((x mod size_t_mod) mod 2 ^ 32 = x mod 2 ^ 32)%N.
Proof.
  unfold size_t_mod. change (2 ^ 64)%N with (2 ^ 32 * 2 ^ 32)%N.
  rewrite N.Div0.mod_mul_r, N.mul_comm, N.Div0.mod_add, N.Div0.mod_mod. reflexivity.
Qed.

Lemma add_mod_size_t_32 (a y c : N) :
  ((a + y mod size_t_mod + c) mod 2 ^ 32 = (a + y + c) mod 2 ^ 32)%N.
Proof.
  rewrite (N.Div0.div_mod y size_t_mod) at 2.
  replace (a + (size_t_mod * (y / size_t_mod) + y mod size_t_mod) + c)%N
    with (a + y mod size_t_mod + c + (y / size_t_mod * 2 ^ 32) * 2 ^ 32)%N
    by (unfold size_t_mod; change (2 ^ 64)%N with (2 ^ 32 * 2 ^ 32)%N; ring).
  now rewrite N.Div0.mod_add.
Qed.

Lemma npz_local_header_length (crc nbytes : N) (key : list byte) :
  length (npz_local_header crc nbytes key) = 30 + length key.
Proof. unfold npz_local_header. rewrite !length_app. reflexivity. Qed.

Lemma npz_central_record_length (lh : list byte) (o : nat) (key : list byte) :
  30 <= length lh -> length (npz_central_record lh o key) = 46 + length key.
Proof.
  intro H. unfold npz_central_record.
  rewrite !length_app, length_firstn, length_skipn, Nat.min_l by lia. simpl. lia.
Qed.

Lemma npz_footer_fields (n : N) (g : nat) (x : N) :
  length (npz_footer n g x) = 22 /\
  le16_at (npz_footer n g x) 10 = ((n + 1) mod 2 ^ 16)%N /\
  le32_at (npz_footer n g x) 12 = (N.of_nat g mod 2 ^ 32)%N /\
  le32_at (npz_footer n g x) 16 = (x mod 2 ^ 32)%N.
Proof.
  pose (P10 := bytes "PK" ++ u16 1541 ++ u16 0 ++ u16 0 ++ u16 (n + 1)).
  pose (P12 := P10 ++ u16 (n + 1)).
  pose (P16 := P12 ++ u32 (N.of_nat g)).
  assert (E10 : npz_footer n g x
                = P10 ++ u16 (n + 1) ++ u32 (N.of_nat g) ++ u32 x ++ u16 0)
    by (unfold npz_footer, P10; now rewrite <- !app_assoc).
  assert (E12 : npz_footer n g x = P12 ++ u32 (N.of_nat g) ++ u32 x ++ u16 0)
    by (rewrite E10; unfold P12; now rewrite <- !app_assoc).
  assert (E16 : npz_footer n g x = P16 ++ u32 x ++ u16 0)
    by (rewrite E12; unfold P16; now rewrite <- !app_assoc).
  split; [reflexivity|]. split; [|split].
  - rewrite E10, <- (u16_decode (n + 1) (u32 (N.of_nat g) ++ u32 x ++ u16 0)).
    exact (le16_at_shift P10 _ 0).
  - rewrite E12, <- (u32_decode (N.of_nat g) (u32 x ++ u16 0)).
    exact (le32_at_shift P12 _ 0).
  - rewrite E16, <- (u32_decode x (u16 0)).
    exact (le32_at_shift P16 _ 0).
Qed.

Lemma Ok_inj {A : Type} (a b : A) : Ok a = Ok b -> a = b.
Proof. intro H. injection H. auto. Qed.

Lemma npz_save_ok_inv (t : ctype) (existing : option (list byte)) (key mode : string)
    (data : list byte) (sh : list N) (nrecs : N) (offset : nat) (dir0 old file : list byte) :
  npz_open existing mode = Ok (nrecs, offset, dir0, old) ->
  npz_save t existing key data sh mode = Ok file ->
  let keyb := bytes key ++ bytes ".npy" in
  let hdr := create_npy_header t sh in
  let nbytes := (((prod_size_t sh * sizeof t) mod size_t_mod
                  + N.of_nat (length hdr)) mod size_t_mod)%N in
  let payload := firstn (payload_len t sh) data in
  let crc := crc32 (crc32 0 (firstn (N.to_nat (N.of_nat (length hdr) mod 2 ^ 32)) hdr))
                   (firstn (N.to_nat (((prod_size_t sh * sizeof t) mod size_t_mod) mod 2 ^ 32))
                      payload) in
  let lh := npz_local_header crc nbytes keyb in
  let dir := dir0 ++ npz_central_record lh offset keyb in
  file = overwrite_at offset
           (lh ++ hdr ++ payload ++ dir
            ++ npz_footer nrecs (length dir)
                 ((N.of_nat offset + nbytes + N.of_nat (length lh)) mod size_t_mod)%N) old.
Proof.
  intros Ho Hs. unfold npz_save in Hs. rewrite Ho in Hs. cbn [bind] in Hs.
  apply Ok_inj in Hs. subst file. reflexivity.
Qed.

(** C5 (amended). After a successful [npz_save] (create or append) the file
    is, in order: the old bytes before the old directory offset (zero
    padded up to it), the new local header ([30 + |key.npy|] bytes,
    compression method 0), the npy header, the payload, the previous
    central directory followed by one new record of [46 + |key.npy|] bytes
    with compression method 0, the 22-byte locator, and a [tail] of stale
    bytes of the old file, which is empty when the old file ended with its
    locator. The locator stores the offset at which the directory starts
    modulo 2^32, the directory size modulo 2^32, and the previous count
    plus one modulo 2^16. *)
Theorem npz_save_locator (t : ctype) (existing : option (list byte)) (key mode : string)
    (data : list byte) (sh : list N) (nrecs : N) (offset : nat) (dir0 old file : list byte) :
  npz_open existing mode = Ok (nrecs, offset, dir0, old) ->
  length data = payload_len t sh ->
  npz_save t existing key data sh mode = Ok file ->
  exists lh record footer tail,
    file = firstn offset old ++ repeat x00 (offset - length old)
           ++ lh ++ create_npy_header t sh ++ data ++ (dir0 ++ record) ++ footer ++ tail /\
    length lh = 30 + (String.length key + 4) /\ le16_at lh 8 = 0%N /\
    length record = 46 + (String.length key + 4) /\ le16_at record 10 = 0%N /\
    length footer = 22 /\
    le32_at footer 16
      = (N.of_nat (offset + length lh + length (create_npy_header t sh) + length data)
           mod 2 ^ 32)%N /\
    le32_at footer 12 = (N.of_nat (length (dir0 ++ record)) mod 2 ^ 32)%N /\
    le16_at footer 10 = ((nrecs + 1) mod 2 ^ 16)%N /\
    (length old <= offset + length dir0 + 22 -> tail = []).
Proof.
  intros Ho Hd Hs.
  pose proof (npz_save_ok_inv t existing key mode data sh nrecs offset dir0 old file Ho Hs)
    as Hf.
  cbv zeta in Hf.
  rewrite (firstn_all2 data) in Hf by lia.
  set (keyb := bytes key ++ bytes ".npy") in Hf.
  set (hdr := create_npy_header t sh) in Hf |- *.
  set (nbytes := (((prod_size_t sh * sizeof t) mod size_t_mod
                   + N.of_nat (length hdr)) mod size_t_mod)%N) in Hf.
  set (crc := crc32 (crc32 0 _) _) in Hf.
  set (lh := npz_local_header crc nbytes keyb) in Hf.
  set (rec := npz_central_record lh offset keyb) in Hf.
  set (footer := npz_footer nrecs (length (dir0 ++ rec))
                   ((N.of_nat offset + nbytes + N.of_nat (length lh)) mod size_t_mod)%N) in Hf.
  assert (Hkey : length keyb = String.length key + 4)
    by (unfold keyb; rewrite length_app, bytes_length; reflexivity).
  assert (Hlh : length lh = 30 + (String.length key + 4))
    by (unfold lh; now rewrite npz_local_header_length, Hkey).
  assert (Hrec : length rec = 46 + (String.length key + 4))
    by (unfold rec; rewrite npz_central_record_length; lia).
  destruct (npz_footer_fields nrecs (length (dir0 ++ rec))
              ((N.of_nat offset + nbytes + N.of_nat (length lh)) mod size_t_mod)%N)
    as (Hfl & Hcnt & Hsize & Hoff).
  fold footer in Hfl, Hcnt, Hsize, Hoff.
  exists lh, rec, footer,
    (skipn (offset + length (lh ++ hdr ++ data ++ (dir0 ++ rec) ++ footer)) old).
  split; [|split; [exact Hlh|split; [|split; [exact Hrec|split; [|split;
    [exact Hfl|split; [|split; [exact Hsize|split; [exact Hcnt|]]]]]]]]].
  - rewrite Hf. unfold overwrite_at. rewrite <- !app_assoc. reflexivity.
  - unfold lh.
    cbn [le16_at byte_at nth app npz_local_header u16 u32 bytes
         list_byte_of_string map list_ascii_of_string Nat.add].
    vm_compute. reflexivity.
  - unfold rec, lh.
    cbn [le16_at byte_at nth app firstn skipn npz_central_record npz_local_header
         u16 u32 bytes list_byte_of_string map list_ascii_of_string].
    vm_compute. reflexivity.
  - rewrite Hoff, mod_size_t_32. unfold nbytes. rewrite add_mod_size_t_32.
    f_equal. rewrite !Nat2N.inj_add, Hd. unfold payload_len.
    rewrite N2Nat.id, (N.mul_comm (sizeof t)).
    generalize ((prod_size_t sh * sizeof t) mod size_t_mod)%N. intro y. clear. lia.
  - intro Hlen. apply skipn_all2. rewrite !length_app, Hfl. clear - Hlen. lia.
Qed.

(** Appending entry [b] to [demo_archive]: its directory (one 51-byte
    record) starts at offset 176. *)
Lemma npz_save_locator_witness :
  npz_open (Some demo_archive) "a"
    = Ok (1%N, 176, firstn 51 (skipn 176 demo_archive), demo_archive) /\
  length (repeat x02 16) = payload_len TDouble [2%N] /\
  npz_save TDouble (Some demo_archive) "b" (repeat x02 16) [2%N] "a" = Ok demo_appended /\
  exists lh record footer tail,
    demo_appended = firstn 176 demo_archive ++ repeat x00 (176 - length demo_archive)
           ++ lh ++ create_npy_header TDouble [2%N] ++ repeat x02 16
           ++ (firstn 51 (skipn 176 demo_archive) ++ record) ++ footer ++ tail /\
    length lh = 30 + (String.length "b" + 4) /\ le16_at lh 8 = 0%N /\
    length record = 46 + (String.length "b" + 4) /\ le16_at record 10 = 0%N /\
    length footer = 22 /\
    le32_at footer 16
      = (N.of_nat (176 + length lh + length (create_npy_header TDouble [2%N])
                   + length (repeat x02 16)) mod 2 ^ 32)%N /\
    le32_at footer 12
      = (N.of_nat (length (firstn 51 (skipn 176 demo_archive) ++ record)) mod 2 ^ 32)%N /\
    le16_at footer 10 = ((1 + 1) mod 2 ^ 16)%N /\
    (length demo_archive <= 176 + length (firstn 51 (skipn 176 demo_archive)) + 22 ->
     tail = []).
Proof.
  split; [vm_compute; reflexivity|]. split; [vm_compute; reflexivity|].
  split; [vm_compute; reflexivity|].
  apply (npz_save_locator TDouble (Some demo_archive) "b" "a" (repeat x02 16) [2%N] 1%N 176
           (firstn 51 (skipn 176 demo_archive)) demo_archive demo_appended);
    vm_compute; reflexivity.
Defined.

(** C5 (counterexample). Appending one entry to an archive whose locator
    records 65535 entries writes a locator recording 0 entries, not 65536:
    the count is stored as [(uint16_t)(nrecs + 1)]. *)
Lemma npz_save_count_counterexample :
  npz_save TDouble (Some full_count_archive) "a" (repeat x00 8) [1%N] "a"
    = Ok full_count_appended /\
  le16_at full_count_archive 10 = 65535%N /\
  le16_at full_count_appended (length full_count_appended - 22 + 10) = 0%N /\
  le16_at full_count_appended (length full_count_appended - 22 + 10)
    <> (le16_at full_count_archive 10 + 1)%N.
Proof. vm_compute. split; [reflexivity|]. split; [reflexivity|]. split; [reflexivity|discriminate]. Qed.
